(** * The [Rounded] postprocessor of the Adversarial Robustness Toolbox

    A shallow embedding of [art/defences/postprocessor/rounded.py] and of
    the iteration contract of the Wasserstein attack's projection
    subroutines, with the properties the specification states about them.

    Python objects are modelled by their attribute dictionary, exceptions
    by an error result that keeps the state reached when the exception was
    raised, and numpy arrays by buffers living in a store of their own. *)

From Stdlib Require Import ZArith Floats.SpecFloat.
From stdpp Require Import base strings gmap list.

Local Open Scope string_scope.
Local Open Scope Z_scope.

(** ** Python values, classes and exceptions *)

(** The values a caller can hand to [decimals] or put in [**kwargs]. A
    Python [float] is an IEEE-754 binary64 datum; [NpInt] is a numpy integer
    scalar such as [np.int64(3)]. *)
Inductive pyval : Type :=
  | PyInt (z : Z)
  | PyBool (b : bool)
  | PyFloat (x : spec_float)
  | PyStr (s : string)
  | PyNone
  | NpInt (z : Z).

Inductive pyclass : Type := int_t | bool_t | float_t | str_t | NoneType_t | np_integer_t.

#[global] Instance pyclass_eq_dec : EqDecision pyclass.
Proof. solve_decision. Defined.

Definition type_of (v : pyval) : pyclass :=
  match v with
  | PyInt _ => int_t
  | PyBool _ => bool_t
  | PyFloat _ => float_t
  | PyStr _ => str_t
  | PyNone => NoneType_t
  | NpInt _ => np_integer_t
  end.

(** [bool] is the one proper subclass among the modelled classes: it derives
    from [int]. The class of numpy's integer scalars does not. *)
Definition issubclass (c parent : pyclass) : bool :=
  bool_decide (c = parent) || (bool_decide (c = bool_t) && bool_decide (parent = int_t)).

(** [isinstance(v, (c1, ..., cn))] *)
Definition isinstance (v : pyval) (classes : list pyclass) : bool :=
  existsb (issubclass (type_of v)) classes.

(** [np.int] is numpy's alias of the builtin [int]. *)
Definition np_int : pyclass := int_t.

Inductive exn : Type :=
  | ValueError (msg : string)
  | AttributeError (name : string)
  | TypeError (msg : string)
  | OverflowError (msg : string).

Inductive result (A : Type) : Type :=
  | Ok (a : A)
  | Raise (e : exn).
Arguments Ok {A} a.
Arguments Raise {A} e.

(** [v <= n] for an integer literal [n]; strings and [None] do not compare
    with integers. *)
Definition py_le (v : pyval) (n : Z) : result bool :=
  match v with
  | PyInt z => Ok (z <=? n)
  | PyBool b => Ok (Z.b2z b <=? n)
  | PyFloat x => Ok (SFleb x (binary_normalize 53 1024 n 0 false))
  | PyStr _ => Raise (TypeError "'<=' not supported between instances of 'str' and 'int'")
  | PyNone => Raise (TypeError "'<=' not supported between instances of 'NoneType' and 'int'")
  | NpInt z => Ok (z <=? n)
  end.

(** ** Methods as computations *)

(** A method runs on a state and yields a value or raises; either way the
    state it leaves behind is the one the caller goes on with, so whatever
    was assigned before an exception stays assigned. *)
Definition M (S A : Type) : Type := S → result A * S.

#[global] Instance M_ret {S} : MRet (M S) := λ A a s, (Ok a, s).

#[global] Instance M_bind {S} : MBind (M S) := λ A B k m s,
  match m s with
  | (Ok a, s') => k a s'
  | (Raise e, s') => (Raise e, s')
  end.

Definition raise {S A} (e : exn) : M S A := λ s, (Raise e, s).

Definition lift {S A} (r : result A) : M S A := λ s, (r, s).

(** [for key, value in kwargs.items(): body] *)
Fixpoint for_items {S} (kwargs : list (string * pyval)) (body : string → pyval → M S unit)
  : M S unit :=
  match kwargs with
  | [] => mret ()
  | (key, value) :: rest => body key value ;; for_items rest body
  end.

(** ** numpy's side *)

(** Element types of the arrays a classifier returns, with the kind numpy
    gives each. *)
Inductive dtype : Type := int32 | int64 | float16 | float32 | float64.

Inductive dtype_kind : Type := integer_kind | floating_kind.

#[global] Instance dtype_kind_eq_dec : EqDecision dtype_kind.
Proof. solve_decision. Defined.

Definition kind (t : dtype) : dtype_kind :=
  match t with
  | int32 | int64 => integer_kind
  | float16 | float32 | float64 => floating_kind
  end.

(** [operator.index(v)]: what numpy accepts where it wants an integer. *)
Definition index (v : pyval) : result Z :=
  match v with
  | PyInt z => Ok z
  | PyBool b => Ok (Z.b2z b)
  | PyFloat _ => Raise (TypeError "'float' object cannot be interpreted as an integer")
  | PyStr _ => Raise (TypeError "'str' object cannot be interpreted as an integer")
  | PyNone => Raise (TypeError "'NoneType' object cannot be interpreted as an integer")
  | NpInt z => Ok z
  end.

(** numpy reads [decimals] into a C [int]. *)
Definition fits_c_int (z : Z) : bool := (- 2 ^ 31 <=? z) && (z <? 2 ^ 31).

(** ** The class [Rounded] *)

Section Rounded.

(** The scalars stored in an array and numpy's rounding of one scalar to a
    number of decimals are floating-point matters of the library; the
    development is parametric in both. *)
Variable scalar : Type.
Variable around_scalar : dtype → Z → scalar → scalar.

Record ndarray : Type := mk_ndarray {
  shape : list nat;
  dtype_of : dtype;
  data : list scalar;
}.

(** The state a method runs on: the attribute dictionary of the instance
    and the arrays that exist, by reference. *)
Record world : Type := mk_world {
  attrs : gmap string pyval;
  arrays : gmap positive ndarray;
}.

(** Class attribute [params]. *)
Definition params : list string := ["decimals"].

(** The names the class declares as properties without a setter. *)
Definition properties : list string := ["apply_fit"; "apply_predict"].

(** [self.<name>] for a plain attribute. *)
Definition getattr (name : string) : M world pyval :=
  λ w,
    match attrs w !! name with
    | Some v => (Ok v, w)
    | None => (Raise (AttributeError name), w)
    end.

(** [setattr(self, name, value)]: a property without a setter refuses the
    assignment, any other name lands in the instance dictionary. *)
Definition setattr (name : string) (value : pyval) : M world unit :=
  λ w,
    if bool_decide (name ∈ properties)
    then (Raise (AttributeError name), w)
    else (Ok (), {| attrs := <[name := value]> (attrs w); arrays := arrays w |}).

(** Modelled from the spec: the base class [Postprocessor] is not among the
    sources. Its constructor is taken to initialise only the fitted marker,
    which [Rounded.__init__] overwrites at once (the postprocessor is
    "stateless besides configuration"). *)
Definition Postprocessor_init : M world unit :=
  setattr "_is_fitted" (PyBool false).

(** Modelled from the spec: [Postprocessor.set_params], which
    [Rounded.set_params] calls to "save defence-specific parameters": every
    keyword naming a declared parameter is stored as an attribute; in the
    reference behaviour "validation happens after assignment". *)
Definition Postprocessor_set_params (kwargs : list (string * pyval)) : M world pyval :=
  for_items kwargs
    (λ key value, if bool_decide (key ∈ params) then setattr key value else mret ()) ;;
  mret (PyBool true).

Definition decimals_error : exn :=
  ValueError "Number of decimal places must be a positive integer.".

(** [Rounded.set_params(self, **kwargs)] *)
Definition set_params (kwargs : list (string * pyval)) : M world pyval :=
  Postprocessor_set_params kwargs ;;
  d ← getattr "decimals";
  bad ← (if negb (isinstance d [int_t; np_int]) then mret true
         else d' ← getattr "decimals"; lift (py_le d' 0));
  if (bad : bool) then raise decimals_error else mret (PyBool true).

(** [Rounded.__init__(self, decimals, apply_fit, apply_predict)] *)
Definition __init__ (decimals : pyval) (apply_fit apply_predict : bool) : M world unit :=
  Postprocessor_init ;;
  setattr "_is_fitted" (PyBool true) ;;
  setattr "_apply_fit" (PyBool apply_fit) ;;
  setattr "_apply_predict" (PyBool apply_predict) ;;
  set_params [("decimals", decimals)] ;;
  mret ().

(** The constructor call [Rounded(decimals=3, apply_fit=False,
    apply_predict=True)], evaluated where the arrays [store] exist: an
    omitted argument takes its default, [__init__] runs on an instance
    without attributes, and an exception escaping it means that no object
    is obtained. *)
Definition new (decimals : option pyval) (apply_fit apply_predict : option bool)
    (store : gmap positive ndarray) : result world :=
  match __init__ (default (PyInt 3) decimals) (default false apply_fit)
          (default true apply_predict) {| attrs := ∅; arrays := store |} with
  | (Ok _, w) => Ok w
  | (Raise e, _) => Raise e
  end.

(** The two properties. *)
Definition apply_fit : M world pyval := getattr "_apply_fit".

Definition apply_predict : M world pyval := getattr "_apply_predict".

Definition rounded_array (decimals : Z) (a : ndarray) : ndarray :=
  {| shape := shape a;
     dtype_of := dtype_of a;
     data := around_scalar (dtype_of a) decimals <$> data a |}.

(** [np.around(a, decimals=d)], called without [out], as the numpy this
    code runs on (the one that still has [np.int]) does it. [decimals] is
    read into a C [int]: a value that is no integer is a type error, one
    out of range an overflow error. An array of integer type rounded to
    [decimals >= 0] is returned as it is, the very array that was passed;
    in every other case the rounded values go to an array numpy allocates,
    of the shape and type of [a]. A reference always designates an array;
    the first branch only makes the function total. *)
Definition np_around (a : positive) (decimals : pyval) : M world positive :=
  λ w,
    match arrays w !! a with
    | None => (Raise (TypeError "not an array"), w)
    | Some arr =>
        match index decimals with
        | Raise e => (Raise e, w)
        | Ok d =>
            if negb (fits_c_int d)
            then (Raise (OverflowError "Python int too large to convert to C int"), w)
            else if bool_decide (kind (dtype_of arr) = integer_kind) && (0 <=? d)
            then (Ok a, w)
            else
              let out := fresh (dom (arrays w)) in
              (Ok out, {| attrs := attrs w;
                          arrays := <[out := rounded_array d arr]> (arrays w) |})
        end
    end.

(** [Rounded.__call__(self, preds)] *)
Definition __call__ (preds : positive) : M world positive :=
  d ← getattr "decimals";
  np_around preds d.

(** [Rounded.fit(self, preds, **kwargs)] *)
Definition fit (preds : positive) (kwargs : list (string * pyval)) : M world pyval :=
  mret PyNone.

(** What a client can do with an instance through the methods of the
    class, and the state each call leaves, whether it returned or raised. *)
Inductive op : Type :=
  | Call (preds : positive)
  | Fit (preds : positive) (kwargs : list (string * pyval))
  | SetParams (kwargs : list (string * pyval)).

Definition run_op (o : op) (w : world) : world :=
  match o with
  | Call preds => (__call__ preds w).2
  | Fit preds kwargs => (fit preds kwargs w).2
  | SetParams kwargs => (set_params kwargs w).2
  end.

Definition run_ops (os : list op) (w : world) : world := foldl (λ w o, run_op o w) w os.

End Rounded.

Arguments shape {scalar} _.
Arguments dtype_of {scalar} _.
Arguments data {scalar} _.
Arguments attrs {scalar} _.
Arguments arrays {scalar} _.
Arguments mk_ndarray {scalar} _ _ _.
Arguments mk_world {scalar} _ _.
Arguments getattr {scalar} _.
Arguments setattr {scalar} _ _.
Arguments set_params {scalar} _.
Arguments Postprocessor_set_params {scalar} _.
Arguments Postprocessor_init {scalar}.
Arguments __init__ {scalar} _ _ _.
Arguments new {scalar} _ _ _ _.
Arguments apply_fit {scalar}.
Arguments apply_predict {scalar}.
Arguments fit {scalar} _ _.
Arguments rounded_array {scalar} _ _ _.
Arguments np_around {scalar} _ _ _.
Arguments __call__ {scalar} _ _.
Arguments run_op {scalar} _ _ _.
Arguments run_ops {scalar} _ _ _.

(** ** The Wasserstein attack's projection subroutines *)

Section Sinkhorn.

(** The iterate of the fixed-point computation, the regularization
    strength and the arithmetic of one update are numerical matters; the
    loop is parametric in them. *)
Variable iterate : Type.
Variable strength : Type.
Variable projected_update : strength → iterate → iterate.
Variable conjugate_update : strength → iterate → iterate.
Variable within_tolerance : iterate → iterate → bool.

Record attack_config : Type := mk_attack_config {
  regularization : strength;
  projected_sinkhorn_max_iter : nat;
  conjugate_sinkhorn_max_iter : nat;
}.

(** Modelled from the spec: the attack module is not among the sources.
    The projection is "solved iteratively" by a fixed-point update,
    stopping on "a per-iteration relative change below a small numeric
    tolerance, or the iteration cap, whichever comes first". [remaining]
    counts the iterations the cap still allows, [done_] those performed. *)
Fixpoint sinkhorn_loop (update : iterate → iterate) (remaining done_ : nat) (x : iterate)
  : nat * iterate :=
  match remaining with
  | O => (done_, x)
  | S remaining' =>
      let x' := update x in
      if within_tolerance x x' then (S done_, x')
      else sinkhorn_loop update remaining' (S done_) x'
  end.

(** Modelled from the spec: the primal projection, "bounded by
    [projected_sinkhorn_max_iter] iterations". The result pairs the number
    of iterations performed with the last iterate. *)
Definition projected_sinkhorn (cfg : attack_config) (x0 : iterate) : nat * iterate :=
  sinkhorn_loop (projected_update (regularization cfg))
    (projected_sinkhorn_max_iter cfg) 0 x0.

(** Modelled from the spec: the conjugate variant, under the
    [conjugate_sinkhorn_max_iter] bound. *)
Definition conjugate_sinkhorn (cfg : attack_config) (x0 : iterate) : nat * iterate :=
  sinkhorn_loop (conjugate_update (regularization cfg))
    (conjugate_sinkhorn_max_iter cfg) 0 x0.

End Sinkhorn.

Arguments regularization {strength} _.
Arguments projected_sinkhorn_max_iter {strength} _.
Arguments conjugate_sinkhorn_max_iter {strength} _.
Arguments mk_attack_config {strength} _ _ _.
Arguments sinkhorn_loop {iterate} _ _ _ _ _.
Arguments projected_sinkhorn {iterate strength} _ _ _ _.
Arguments conjugate_sinkhorn {iterate strength} _ _ _ _.

(** ** Vocabulary of the specification *)

(** "A positive integer": a value Python takes for an integer (an [int], a
    [bool], which is one with [True = 1], or a numpy integer scalar) and
    which is greater than 0. *)
Definition positive_integer (v : pyval) : Prop := ∃ z, index v = Ok z ∧ 0 < z.

#[global] Instance positive_integer_dec v : Decision (positive_integer v).
Proof.
  refine (match index v as r return index v = r → _ with
          | Ok z => λ E, cast_if (decide (0 < z))
          | Raise _ => λ E, right _
          end eq_refl); unfold positive_integer.
  - exists z. done.
  - intros (z' & Hz & ?). congruence.
  - intros (z' & Hz & ?). congruence.
Defined.

(** The integer a value of Python's own class [int], or of its subclass
    [bool], stands for. *)
Definition python_int (v : pyval) : option Z :=
  match v with
  | PyInt z => Some z
  | PyBool b => Some (Z.b2z b)
  | _ => None
  end.

(** A positive integer of Python's own class [int]. *)
Definition positive_python_int (v : pyval) : Prop := ∃ z, python_int v = Some z ∧ 0 < z.

#[global] Instance positive_python_int_dec v : Decision (positive_python_int v).
Proof.
  refine (match python_int v as r return python_int v = r → _ with
          | Some z => λ E, cast_if (decide (0 < z))
          | None => λ E, right _
          end eq_refl); unfold positive_python_int.
  - exists z. done.
  - intros (z' & Hz & ?). congruence.
  - intros (z' & Hz & ?). congruence.
Defined.

(** The invariant of a configured instance: [decimals] holds a positive
    integer. *)
Definition configured {scalar} (w : world scalar) : Prop :=
  ∃ d, attrs w !! "decimals" = Some d ∧ positive_integer d.

(** The attribute dictionary once the keywords that name parameters have
    been saved, in the order they were given. *)
Definition saved (kwargs : list (string * pyval)) (a : gmap string pyval)
  : gmap string pyval :=
  foldl (λ a kv, if bool_decide (kv.1 ∈ params) then <[kv.1 := kv.2]> a else a) a kwargs.

(** The attributes [__init__] has assigned by the time it returns. *)
Definition initial_attrs (d : pyval) (af ap : bool) : gmap string pyval :=
  <["decimals" := d]> (<["_apply_predict" := PyBool ap]> (<["_apply_fit" := PyBool af]>
    (<["_is_fitted" := PyBool true]> (<["_is_fitted" := PyBool false]> ∅)))).

(** An instance of the parameters, for evaluation: scalars that are exact
    decimal numbers with six digits after the point, held as their count of
    millionths. Rounding to [decimals] places is to the nearest multiple of
    [10 ^ (6 - decimals)] millionths, a half going to the even multiple. *)
Definition around_decimal (t : dtype) (decimals : Z) (x : Z) : Z :=
  if 6 <=? decimals then x
  else
    let m := 10 ^ (6 - decimals) in
    let q := x `div` m in
    let r := x `mod` m in
    if 2 * r <? m then q * m
    else if m <? 2 * r then (q + 1) * m
    else if Z.even q then q * m else (q + 1) * m.

(** Two predictions over three classes, and an instance configured with the
    defaults next to them. *)
Definition sample_preds : ndarray Z :=
  {| shape := [2%nat; 3%nat];
     dtype_of := float64;
     data := [123456; 876044; 500; 1500; 998500; 0] |}.

Definition sample_world : world Z :=
  {| attrs := initial_attrs (PyInt 3) false true; arrays := {[ 1%positive := sample_preds ]} |}.

(** An array of class indices, of integer type, and an instance configured
    with the defaults next to it. *)
Definition sample_labels : ndarray Z :=
  {| shape := [3%nat]; dtype_of := int64; data := [7; 0; 2] |}.

Definition labels_world : world Z :=
  {| attrs := initial_attrs (PyInt 3) false true; arrays := {[ 1%positive := sample_labels ]} |}.

(** Whether numpy returns the array [a] itself when asked to round it to
    [z] decimals: it does for an array of integer type and [z >= 0]. *)
Definition returned_as_is {scalar} (a : ndarray scalar) (z : Z) : bool :=
  bool_decide (kind (dtype_of a) = integer_kind) && (0 <=? z).



(** A second instance of the parameters: arrays of [float64], whose scalars
    are binary64 data. numpy documents its rounding of floating-point data
    to [decimals > 0] places as [true_divide(rint(a * 10**decimals),
    10**decimals)]; below, [rint] rounds to the nearest integer, a half
    going to the even one, and the power of ten is the binary64 number
    nearest to it. For [decimals < 0] the division comes first. *)
Definition b64_of_Z (n : Z) : spec_float := binary_normalize 53 1024 n 0 false.

Definition rint (x : spec_float) : spec_float :=
  match x with
  | S754_finite s m e =>
      if 0 <=? e then x
      else
        let q := Z.shiftr (Zpos m) (- e) in
        let r := Z.land (Zpos m) (Z.ones (- e)) in
        let half := Z.shiftl 1 (- e - 1) in
        let n := if r <? half then q
                 else if half <? r then q + 1
                 else if Z.even q then q else q + 1 in
        if n =? 0 then S754_zero s
        else binary_normalize 53 1024 (if s then - n else n) 0 false
  | _ => x
  end.

Definition around_binary64 (t : dtype) (decimals : Z) (x : spec_float) : spec_float :=
  if decimals =? 0 then rint x
  else if 0 <? decimals
  then SFdiv 53 1024 (rint (SFmul 53 1024 x (b64_of_Z (10 ^ decimals)))) (b64_of_Z (10 ^ decimals))
  else SFmul 53 1024 (rint (SFdiv 53 1024 x (b64_of_Z (10 ^ (- decimals)))))
         (b64_of_Z (10 ^ (- decimals))).



(** The value a call of [set_params] gives for [decimals] among its
    keywords, if it gives one. *)
Definition decimals_given (kwargs : list (string * pyval)) : option pyval :=
  foldl (λ acc kv, if bool_decide (kv.1 = "decimals") then Some kv.2 else acc) None kwargs.

(** The value last given for [decimals] along a sequence of method calls,
    [d0] when none of them gave one. *)
Definition last_decimals (os : list op) (d0 : option pyval) : option pyval :=
  foldl (λ acc o,
           match o with
           | SetParams kwargs => from_option Some acc (decimals_given kwargs)
           | _ => acc
           end) d0 os.

(** How many of the method calls of a sequence are calls of [__call__]. *)
Definition calls (os : list op) : nat :=
  sum_list_with (λ o, match o with Call _ => 1%nat | _ => 0%nat end) os.

(** ** Evaluations *)

Example new_default :
  new (scalar := Z) None None None ∅ =
  Ok {| attrs := <["decimals" := PyInt 3]> (<["_apply_predict" := PyBool true]>
                  (<["_apply_fit" := PyBool false]> (<["_is_fitted" := PyBool true]> ∅)));
        arrays := ∅ |}.
Proof. vm_compute. reflexivity. Qed.

Example new_zero_fails : new (scalar := Z) (Some (PyInt 0)) None None ∅ = Raise decimals_error.
Proof. vm_compute. reflexivity. Qed.

Example new_float_fails :
  new (scalar := Z) (Some (PyFloat (S754_finite false 3 0))) None None ∅ = Raise decimals_error.
Proof. vm_compute. reflexivity. Qed.

Example new_true_passes :
  ∃ w, new (scalar := Z) (Some (PyBool true)) None None ∅ = Ok w.
Proof. eexists. vm_compute. reflexivity. Qed.

Example new_sample :
  new None None None {[ 1%positive := sample_preds ]} = Ok sample_world.
Proof. vm_compute. reflexivity. Qed.

Example call_sample :
  ∃ w', __call__ around_decimal 1 sample_world = (Ok 2%positive, w') ∧
        arrays w' !! 2%positive =
          Some {| shape := [2%nat; 3%nat];
                  dtype_of := float64;
                  data := [123000; 876000; 0; 2000; 998000; 0] |} ∧
        arrays w' !! 1%positive = Some sample_preds.
Proof. eexists. vm_compute. done. Qed.

Example call_after_rejected_update :
  ∃ out w', __call__ around_decimal 1
              (set_params [("decimals", PyInt (-1))] sample_world).2 = (Ok out, w') ∧
            attrs w' !! "decimals" = Some (PyInt (-1)).
Proof. eexists _, _. vm_compute. done. Qed.

Example call_with_float_decimals :
  (__call__ around_decimal 1
     (set_params [("decimals", PyFloat (S754_finite false 3 0))] sample_world).2).1
  = Raise (TypeError "'float' object cannot be interpreted as an integer").
Proof. vm_compute. reflexivity. Qed.

Example new_numpy_integer_fails :
  new (scalar := Z) (Some (NpInt 3)) None None ∅ = Raise decimals_error.
Proof. vm_compute. reflexivity. Qed.

Example revalidation_rejects_stored_numpy_integer :
  let w := (set_params [("decimals", NpInt 3)] sample_world).2 in
  configured w ∧ (set_params [] w).1 = Raise decimals_error.
Proof.
  split; [|reflexivity].
  exists (NpInt 3). split; [reflexivity|]. exists 3. split; [reflexivity|lia].
Qed.

Example call_on_labels : __call__ around_decimal 1 labels_world = (Ok 1%positive, labels_world).
Proof. vm_compute. reflexivity. Qed.

Example call_with_large_decimals :
  (__call__ around_decimal 1 (set_params [("decimals", PyInt (2 ^ 31))] sample_world).2).1
  = Raise (OverflowError "Python int too large to convert to C int").
Proof. vm_compute. reflexivity. Qed.

Example around_binary64_sample :
  around_binary64 float64 3 (SFdiv 53 1024 (b64_of_Z 123456) (b64_of_Z 1000000))
  = SFdiv 53 1024 (b64_of_Z 123) (b64_of_Z 1000).
Proof. vm_compute. reflexivity. Qed.

Example around_binary64_half :
  around_binary64 float64 0 <$> [SFdiv 53 1024 (b64_of_Z 5) (b64_of_Z 2);
                                 SFdiv 53 1024 (b64_of_Z 7) (b64_of_Z 2);
                                 SFdiv 53 1024 (b64_of_Z (-1)) (b64_of_Z 4)]
  = [b64_of_Z 2; b64_of_Z 4; S754_zero true].
Proof. vm_compute. reflexivity. Qed.

(** ** What [set_params] computes *)

Section SetParams.

Context {scalar : Type}.
Implicit Types (w : world scalar) (d v : pyval) (kwargs : list (string * pyval)).

Lemma setattr_param key v w :
  key ∈ params →
  setattr key v w = (Ok (), {| attrs := <[key := v]> (attrs w); arrays := arrays w |}).
Proof.
  unfold params. intros ->%list_elem_of_singleton. reflexivity.
Qed.

Lemma setattr_private name v w :
  name ∉ properties →
  setattr name v w = (Ok (), {| attrs := <[name := v]> (attrs w); arrays := arrays w |}).
Proof.
  intros Hn. unfold setattr. by rewrite bool_decide_eq_false_2.
Qed.

Lemma for_items_saved kwargs w :
  for_items kwargs
    (λ key value, if bool_decide (key ∈ params) then setattr key value else mret ()) w
  = (Ok (), {| attrs := saved kwargs (attrs w); arrays := arrays w |}).
Proof.
  revert w. induction kwargs as [|[key value] rest IH]; intros w.
  - by destruct w.
  - cbn [for_items]. unfold mbind, M_bind. simpl.
    case_bool_decide as Hkey.
    + rewrite (setattr_param _ _ _ Hkey). rewrite IH. reflexivity.
    + unfold mret, M_ret. rewrite IH. reflexivity.
Qed.

Lemma Postprocessor_set_params_saved kwargs w :
  Postprocessor_set_params kwargs w =
  (Ok (PyBool true), {| attrs := saved kwargs (attrs w); arrays := arrays w |}).
Proof.
  unfold Postprocessor_set_params, mbind, M_bind. by rewrite for_items_saved.
Qed.

Lemma positive_python_int_positive d : positive_python_int d → positive_integer d.
Proof.
  intros (z & Hz & Hpos). exists z. split; [|done].
  by destruct d; simplify_eq/=.
Qed.

Lemma python_int_index d z : python_int d = Some z → index d = Ok z.
Proof. by destruct d; intros [= <-]. Qed.

(** The test of [set_params], [not isinstance(d, (int, np.int)) or d <= 0],
    rejects exactly the values that are not positive integers of Python's
    own. *)
Lemma check_rejects d :
  (if negb (isinstance d [int_t; np_int]) then Ok true else py_le d 0)
  = Ok (bool_decide (¬ positive_python_int d)).
Proof.
  destruct d as [z|b|x|s| |z]; try reflexivity.
  - cbn [isinstance type_of existsb negb py_le]. f_equal.
    destruct (Z.leb_spec z 0) as [Hle|Hlt]; symmetry.
    + apply bool_decide_eq_true_2. intros (z' & [= <-] & ?). lia.
    + apply bool_decide_eq_false_2. intros Hn. apply Hn. exists z. done.
  - destruct b; reflexivity.
Qed.

(** [set_params] first saves, then reads [decimals] back and judges it;
    the state it leaves is the saved one whatever the verdict. *)
Lemma set_params_unfold kwargs w :
  set_params kwargs w =
  let w' := {| attrs := saved kwargs (attrs w); arrays := arrays w |} in
  match saved kwargs (attrs w) !! "decimals" with
  | None => (Raise (AttributeError "decimals"), w')
  | Some d =>
      if decide (positive_python_int d) then (Ok (PyBool true), w')
      else (Raise decimals_error, w')
  end.
Proof.
  unfold set_params, mbind, M_bind. rewrite Postprocessor_set_params_saved.
  unfold getattr. cbn [attrs].
  destruct (saved kwargs (attrs w) !! "decimals") as [d|] eqn:Hd; [|reflexivity].
  cbn zeta.
  pose proof (check_rejects d) as Hc.
  destruct (negb (isinstance d [int_t; np_int])).
  - injection Hc as Hc. unfold mret, M_ret.
    destruct (decide (positive_python_int d)) as [Hp|Hp].
    + rewrite bool_decide_eq_false_2 in Hc; [done | tauto].
    + reflexivity.
  - cbn [attrs]. rewrite Hd. unfold lift. rewrite Hc.
    destruct (decide (positive_python_int d)) as [Hp|Hp].
    + rewrite bool_decide_eq_false_2; [reflexivity | tauto].
    + rewrite bool_decide_eq_true_2; [reflexivity | done].
Qed.

Lemma saved_decimals d (a : gmap string pyval) :
  saved [("decimals", d)] a = <["decimals" := d]> a.
Proof. reflexivity. Qed.

Lemma saved_other kwargs (a : gmap string pyval) name :
  name ≠ "decimals" → saved kwargs a !! name = a !! name.
Proof.
  intros Hn. revert a. induction kwargs as [|[key value] rest IH]; intros a; [done|].
  simpl. case_bool_decide as Hkey; [|apply IH].
  rewrite IH. unfold params in Hkey. apply list_elem_of_singleton in Hkey as ->.
  by rewrite lookup_insert_ne.
Qed.

Lemma set_params_decimals d w :
  set_params [("decimals", d)] w =
  (if decide (positive_python_int d) then Ok (PyBool true) else Raise decimals_error,
   {| attrs := <["decimals" := d]> (attrs w); arrays := arrays w |}).
Proof.
  rewrite set_params_unfold, saved_decimals. cbn zeta.
  rewrite lookup_insert_eq. by destruct (decide (positive_python_int d)).
Qed.

End SetParams.

(** ** Construction *)

Section Construction.

Context {scalar : Type}.
Implicit Types (w : world scalar) (store : gmap positive (ndarray scalar)).

Lemma init_unfold d af ap store :
  __init__ d af ap {| attrs := ∅; arrays := store |} =
  (if decide (positive_python_int d) then Ok () else Raise decimals_error,
   {| attrs := initial_attrs d af ap; arrays := store |}).
Proof.
  unfold __init__, Postprocessor_init, mbind, M_bind.
  rewrite !setattr_private by compute_done. cbn [attrs arrays].
  rewrite set_params_decimals. cbn [attrs arrays].
  by destruct (decide (positive_python_int d)).
Qed.

Lemma new_unfold d af ap store :
  new d af ap store =
  let d' := default (PyInt 3) d in
  if decide (positive_python_int d')
  then Ok {| attrs := initial_attrs d' (default false af) (default true ap);
             arrays := store |}
  else Raise decimals_error.
Proof.
  unfold new. rewrite init_unfold. cbn zeta.
  by destruct (decide (positive_python_int (default (PyInt 3) d))).
Qed.

End Construction.

(** ** Calling the postprocessor *)

Section Calling.

Context {scalar : Type} (around_scalar : dtype → Z → scalar → scalar).
Implicit Types (w : world scalar) (a : ndarray scalar) (preds out : positive).

Lemma call_unfold w preds d z a :
  attrs w !! "decimals" = Some d →
  index d = Ok z →
  arrays w !! preds = Some a →
  __call__ around_scalar preds w =
  if negb (fits_c_int z)
  then (Raise (OverflowError "Python int too large to convert to C int"), w)
  else if returned_as_is a z then (Ok preds, w)
  else (Ok (fresh (dom (arrays w))),
        {| attrs := attrs w;
           arrays := <[fresh (dom (arrays w)) := rounded_array around_scalar z a]> (arrays w) |}).
Proof.
  intros Hd Hz Ha. unfold __call__, mbind, M_bind, getattr, np_around.
  rewrite Hd. cbn [attrs arrays]. by rewrite Ha, Hz.
Qed.

Lemma fresh_reference_unused w : arrays w !! fresh (dom (arrays w)) = None.
Proof. apply not_elem_of_dom, is_fresh. Qed.

(** The three outcomes of a call: it raises and changes nothing, it returns
    the array it was given and changes nothing, or it returns a new array
    holding the rounded values. *)
Lemma call_outcomes w preds :
  (∃ e, __call__ around_scalar preds w = (Raise e, w)) ∨
  (∃ d z a, attrs w !! "decimals" = Some d ∧ index d = Ok z ∧ fits_c_int z = true ∧
            arrays w !! preds = Some a ∧ returned_as_is a z = true ∧
            __call__ around_scalar preds w = (Ok preds, w)) ∨
  (∃ d z a, attrs w !! "decimals" = Some d ∧ index d = Ok z ∧ fits_c_int z = true ∧
            arrays w !! preds = Some a ∧ returned_as_is a z = false ∧
            __call__ around_scalar preds w =
            (Ok (fresh (dom (arrays w))),
             {| attrs := attrs w;
                arrays := <[fresh (dom (arrays w)) := rounded_array around_scalar z a]>
                            (arrays w) |})).
Proof.
  destruct (attrs w !! "decimals") as [d|] eqn:Hd.
  2:{ left. eexists. unfold __call__, mbind, M_bind, getattr. by rewrite Hd. }
  destruct (arrays w !! preds) as [a|] eqn:Ha.
  2:{ left. eexists. unfold __call__, mbind, M_bind, getattr, np_around.
      rewrite Hd. cbn [arrays]. by rewrite Ha. }
  destruct (index d) as [z|e] eqn:Hz.
  2:{ left. eexists. unfold __call__, mbind, M_bind, getattr, np_around.
      rewrite Hd. cbn [arrays]. by rewrite Ha, Hz. }
  rewrite (call_unfold w preds d z a Hd Hz Ha).
  destruct (fits_c_int z) eqn:Hfit; cbn [negb]; [|left; by eexists].
  destruct (returned_as_is a z) eqn:Has; right; [left|right]; by exists d, z, a.
Qed.

(** Whatever it returns or raises, [__call__] assigns no attribute. *)
Lemma call_attrs w preds : attrs (__call__ around_scalar preds w).2 = attrs w.
Proof.
  destruct (call_outcomes w preds)
    as [[e ->]|[(d & z & a & _ & _ & _ & _ & _ & ->)|(d & z & a & _ & _ & _ & _ & _ & ->)]];
    done.
Qed.

Lemma fits_c_int_true z : - 2 ^ 31 < z < 2 ^ 31 → fits_c_int z = true.
Proof. intros [? ?]. unfold fits_c_int. apply andb_true_intro. split; lia. Qed.

(** A call returns when [decimals] holds an integer that fits a C [int]. *)
Lemma call_returns w preds d z a :
  attrs w !! "decimals" = Some d →
  index d = Ok z →
  - 2 ^ 31 < z < 2 ^ 31 →
  arrays w !! preds = Some a →
  ∃ out w', __call__ around_scalar preds w = (Ok out, w').
Proof.
  intros Hd Hz Hfit Ha. rewrite (call_unfold w preds d z a Hd Hz Ha).
  rewrite (fits_c_int_true z Hfit). cbn [negb].
  destruct (returned_as_is a z); by eexists _, _.
Qed.


Lemma run_op_keeps_private o w name :
  name ≠ "decimals" → attrs (run_op around_scalar o w) !! name = attrs w !! name.
Proof.
  intros Hn. destruct o as [preds|preds kwargs|kwargs]; cbn [run_op].
  - by rewrite call_attrs.
  - reflexivity.
  - rewrite set_params_unfold. cbn zeta.
    destruct (saved kwargs (attrs w) !! "decimals") as [d|];
      [destruct (decide (positive_python_int d))|]; cbn [snd attrs];
      by apply saved_other.
Qed.

Lemma run_ops_keep_private os w name :
  name ≠ "decimals" → attrs (run_ops around_scalar os w) !! name = attrs w !! name.
Proof.
  intros Hn. revert w. induction os as [|o os IH]; intros w; [done|].
  cbn [run_ops foldl]. fold (run_ops around_scalar os (run_op around_scalar o w)).
  rewrite IH. by apply run_op_keeps_private.
Qed.

End Calling.

(** ** The iteration of the projection *)

Lemma sinkhorn_loop_count {iterate} (update : iterate → iterate) tol remaining done_ x :
  ((sinkhorn_loop tol update remaining done_ x).1 ≤ done_ + remaining)%nat.
Proof.
  revert done_ x. induction remaining as [|r IH]; intros done_ x; cbn [sinkhorn_loop].
  - simpl. lia.
  - destruct (tol x (update x)).
    + simpl. lia.
    + specialize (IH (S done_) (update x)). lia.
Qed.

(** ** The claims of the specification *)

(** C1 (the code departs from the claim): an update that fails validation
    is not undone. An instance built with [decimals=3] and then given
    [set_params(decimals=0)] raises the value error, and [decimals] reads 0
    afterwards: the rejected value has replaced the valid one. *)
Theorem set_params_failure_keeps_rejected_value :
  ∃ w w' : world Z,
    new (Some (PyInt 3)) None None ∅ = Ok w ∧
    attrs w !! "decimals" = Some (PyInt 3) ∧
    set_params [("decimals", PyInt 0)] w = (Raise decimals_error, w') ∧
    attrs w' !! "decimals" = Some (PyInt 0).
Proof.
  eexists _, _. split; [vm_compute; reflexivity|].
  split; [vm_compute; reflexivity|].
  split; vm_compute; reflexivity.
Qed.




(** C3: constructing an instance with a [decimals] that is not a positive
    integer fails with the validation error; an instance that was
    constructed holds a positive integer in [decimals]; and so does every
    instance on which [set_params] has just succeeded, whatever it held
    before and whatever keywords were given. *)
Theorem decimals_invariant {scalar} :
  (∀ d af ap (store : gmap positive (ndarray scalar)),
     ¬ positive_integer (default (PyInt 3) d) → new d af ap store = Raise decimals_error) ∧
  (∀ d af ap store (w : world scalar), new d af ap store = Ok w → configured w) ∧
  (∀ kwargs (w : world scalar) r w', set_params kwargs w = (Ok r, w') → configured w').
Proof.
  split; [|split].
  - intros d af ap store Hd. rewrite new_unfold. cbn zeta.
    destruct (decide (positive_python_int (default (PyInt 3) d))) as [Hp|]; [|done].
    destruct Hd. by apply positive_python_int_positive.
  - intros d af ap store w. rewrite new_unfold. cbn zeta.
    destruct (decide (positive_python_int (default (PyInt 3) d))) as [Hp|]; [|done].
    intros [= <-]. exists (default (PyInt 3) d).
    split; [|by apply positive_python_int_positive].
    cbn [attrs]. apply lookup_insert_eq.
  - intros kwargs w r w'. rewrite set_params_unfold. cbn zeta.
    destruct (saved kwargs (attrs w) !! "decimals") as [d|] eqn:Hd; [|done].
    destruct (decide (positive_python_int d)) as [Hp|]; [|done].
    intros [= _ <-]. exists d. split; [done|]. by apply positive_python_int_positive.
Qed.

Lemma decimals_invariant_witness :
  new (scalar := Z) (Some (PyFloat (S754_finite false 3 0))) None None ∅ = Raise decimals_error ∧
  configured sample_world ∧
  configured (set_params [("decimals", PyInt 2); ("apply_fit", PyBool true)] sample_world).2.
Proof.
  destruct (@decimals_invariant Z) as (Hfail & Hnew & Hset).
  split; [|split].
  - apply Hfail. intros (z & Hz & _). discriminate Hz.
  - apply (Hnew None None None {[ 1%positive := sample_preds ]}). reflexivity.
  - apply (Hset [("decimals", PyInt 2); ("apply_fit", PyBool true)] sample_world (PyBool true)).
    vm_compute. reflexivity.
Defined.




(** C5: for every prediction array, an instance whose [decimals] holds an
    integer that fits a C [int] returns an array when called, and whenever
    a call returns one its shape, element type (hence kind: floating stays
    floating) and number of elements are those of the input. *)
Theorem call_keeps_shape_and_dtype {scalar} (around_scalar : dtype → Z → scalar → scalar)
    (w : world scalar) (preds : positive) (a : ndarray scalar) :
  arrays w !! preds = Some a →
  (∀ d z, attrs w !! "decimals" = Some d → index d = Ok z → - 2 ^ 31 < z < 2 ^ 31 →
     ∃ out w', __call__ around_scalar preds w = (Ok out, w')) ∧
  (∀ out w', __call__ around_scalar preds w = (Ok out, w') →
     ∃ r, arrays w' !! out = Some r ∧
          shape r = shape a ∧
          dtype_of r = dtype_of a ∧
          kind (dtype_of r) = kind (dtype_of a) ∧
          (kind (dtype_of a) = floating_kind → kind (dtype_of r) = floating_kind) ∧
          length (data r) = length (data a)).
Proof.
  intros Ha. split.
  - intros d z Hd Hz Hfit. by apply (call_returns around_scalar w preds d z a).
  - intros out w'.
    destruct (call_outcomes around_scalar w preds)
      as [[e ->]|[(d & z & a' & _ & _ & _ & Ha' & _ & ->)|(d & z & a' & _ & _ & _ & Ha' & _ & ->)]];
      [done| |]; intros [= <- <-]; rewrite Ha in Ha'; injection Ha' as <-.
    + by exists a.
    + exists (rounded_array around_scalar z a). cbn [arrays]. rewrite lookup_insert_eq.
      unfold rounded_array; cbn [shape dtype_of data]. by rewrite length_fmap.
Qed.

Lemma call_keeps_shape_and_dtype_witness :
  ∃ out w' r, __call__ around_decimal 1 sample_world = (Ok out, w') ∧
              arrays w' !! out = Some r ∧
              shape r = [2%nat; 3%nat] ∧ dtype_of r = float64.
Proof.
  destruct (call_keeps_shape_and_dtype around_decimal sample_world 1 sample_preds eq_refl)
    as [Hreturns Hshape].
  destruct (Hreturns (PyInt 3) 3) as (out & w' & Hcall); [reflexivity | reflexivity | lia |].
  destruct (Hshape out w' Hcall) as (r & Hr & Hs & Ht & _).
  exists out, w', r. rewrite Hs, Ht. done.
Defined.

(** C6 (amended): an instance whose [decimals] holds an integer that fits a
    C [int] returns when called on a prediction array; and whenever a call
    returns, the input array and every other array that existed are as they
    were, and so are the attributes. For an array of integer type and
    [decimals >= 0] what is returned is the input array itself, nothing
    being created. Otherwise it is a reference that did not exist before
    (so not the input), to an array whose every element is the element at
    the same place of the input rounded to the number of decimals the
    instance holds. *)
Theorem call_rounds_and_keeps_input {scalar} (around_scalar : dtype → Z → scalar → scalar)
    (w : world scalar) (preds : positive) (a : ndarray scalar) :
  arrays w !! preds = Some a →
  (∀ d z, attrs w !! "decimals" = Some d → index d = Ok z → - 2 ^ 31 < z < 2 ^ 31 →
     ∃ out w', __call__ around_scalar preds w = (Ok out, w')) ∧
  (∀ out w', __call__ around_scalar preds w = (Ok out, w') →
     ∃ d z,
       attrs w !! "decimals" = Some d ∧ index d = Ok z ∧
       arrays w' !! preds = Some a ∧
       (∀ l b, arrays w !! l = Some b → arrays w' !! l = Some b) ∧
       attrs w' = attrs w ∧
       if returned_as_is a z
       then out = preds ∧ w' = w
       else arrays w !! out = None ∧ out ≠ preds ∧
            ∃ r, arrays w' !! out = Some r ∧
                 (∀ i, data r !! i = around_scalar (dtype_of a) z <$> data a !! i) ∧
                 (∀ l, l ≠ out → arrays w' !! l = arrays w !! l)).
Proof.
  intros Ha. split.
  - intros d z Hd Hz Hfit. by apply (call_returns around_scalar w preds d z a).
  - intros out w'.
    destruct (call_outcomes around_scalar w preds)
      as [[e ->]|[(d & z & a' & Hd & Hz & _ & Ha' & Has & ->)
                 |(d & z & a' & Hd & Hz & _ & Ha' & Has & ->)]];
      [done| |]; intros [= <- <-]; rewrite Ha in Ha'; injection Ha' as <-;
      exists d, z; rewrite Has.
    + done.
    + pose proof (fresh_reference_unused w) as Hfresh.
      assert (Hne : ∀ l b, arrays w !! l = Some b → l ≠ fresh (dom (arrays w))).
      { intros l b Hl Heq. rewrite Heq in Hl. congruence. }
      cbn [attrs arrays]. split; [done|]. split; [done|].
      split; [rewrite lookup_insert_ne; [done | intros Heq; by eapply Hne]|].
      split; [intros l b Hl; rewrite lookup_insert_ne; [done | intros Heq; by eapply Hne]|].
      split; [done|]. split; [done|].
      split; [intros Heq; by eapply (Hne preds a)|].
      exists (rounded_array around_scalar z a). split; [apply lookup_insert_eq|]. split.
      * intros i. unfold rounded_array; cbn [data]. apply list_lookup_fmap.
      * intros l Hl. by rewrite lookup_insert_ne.
Qed.

Lemma call_rounds_and_keeps_input_witness :
  ∃ out w', __call__ around_decimal 1 sample_world = (Ok out, w') ∧
            arrays w' !! 1%positive = Some sample_preds ∧
            attrs w' = attrs sample_world.
Proof.
  destruct (call_rounds_and_keeps_input around_decimal sample_world 1 sample_preds eq_refl)
    as [Hreturns Hrounds].
  destruct (Hreturns (PyInt 3) 3) as (out & w' & Hcall); [reflexivity | reflexivity | lia |].
  destruct (Hrounds out w' Hcall) as (d & z & _ & _ & Hin & _ & Hattrs & _).
  by exists out, w'.
Defined.

(** C6, the claim as it stands, fails: an instance with [decimals=3] called
    on an array of integer type returns no new array, it returns the array
    it was given. *)
Lemma call_on_integer_array_returns_its_input :
  ¬ ∃ out w', __call__ around_decimal 1 labels_world = (Ok out, w') ∧ out ≠ 1%positive.
Proof.
  intros (out & w' & Hcall & Hne). vm_compute in Hcall.
  injection Hcall as <- _. by apply Hne.
Qed.

(** C7: for every starting iterate, every regularization strength and
    whatever the update and the tolerance test compute, the projection
    performs at most [projected_sinkhorn_max_iter] iterations and its
    conjugate variant at most [conjugate_sinkhorn_max_iter]. *)
Theorem sinkhorn_within_cap {iterate strength}
    (projected_update conjugate_update : strength → iterate → iterate)
    (within_tolerance : iterate → iterate → bool)
    (cfg : attack_config strength) (x0 : iterate) :
  ((projected_sinkhorn projected_update within_tolerance cfg x0).1
     ≤ projected_sinkhorn_max_iter cfg)%nat ∧
  ((conjugate_sinkhorn conjugate_update within_tolerance cfg x0).1
     ≤ conjugate_sinkhorn_max_iter cfg)%nat.
Proof.
  unfold projected_sinkhorn, conjugate_sinkhorn. split.
  - apply (sinkhorn_loop_count (projected_update (regularization cfg))).
  - apply (sinkhorn_loop_count (conjugate_update (regularization cfg))).
Qed.

(** C8: on an instance that was constructed, after any sequence of calls
    of [__call__], [fit] and [set_params], returning or raising, the
    properties [apply_fit] and [apply_predict] still return the booleans
    the constructor was given (or their defaults), and reading them changes
    nothing; an assignment to either property is refused. *)
Theorem flags_are_read_only {scalar} (around_scalar : dtype → Z → scalar → scalar)
    d af ap store (w : world scalar) :
  new d af ap store = Ok w →
  (∀ os, let w' := run_ops around_scalar os w in
         apply_fit w' = (Ok (PyBool (default false af)), w') ∧
         apply_predict w' = (Ok (PyBool (default true ap)), w')) ∧
  (∀ v (w' : world scalar),
     setattr "apply_fit" v w' = (Raise (AttributeError "apply_fit"), w') ∧
     setattr "apply_predict" v w' = (Raise (AttributeError "apply_predict"), w')).
Proof.
  rewrite new_unfold. cbn zeta.
  destruct (decide (positive_python_int (default (PyInt 3) d))); [|done].
  intros [= <-]. split; [|done].
  intros os. unfold apply_fit, apply_predict, getattr.
  rewrite !run_ops_keep_private by done. cbn [attrs].
  unfold initial_attrs.
  rewrite (lookup_insert_ne _ "decimals" "_apply_fit") by done.
  rewrite (lookup_insert_ne _ "decimals" "_apply_predict") by done.
  rewrite (lookup_insert_ne _ "_apply_predict" "_apply_fit") by done.
  by rewrite !lookup_insert_eq.
Qed.

Lemma flags_are_read_only_witness :
  let w' := run_ops around_decimal
              [SetParams [("_apply_fit", PyBool false); ("decimals", PyInt 0)];
               Call 1; Fit 1 [("apply_predict", PyBool false)]; Call 7]
              (mk_world (initial_attrs (PyInt 2) true true) {[ 1%positive := sample_preds ]}) in
  apply_fit w' = (Ok (PyBool true), w') ∧ apply_predict w' = (Ok (PyBool true), w').
Proof.
  refine (proj1 (flags_are_read_only around_decimal (Some (PyInt 2)) (Some true) None
                   {[ 1%positive := sample_preds ]} _ _) _).
  vm_compute. reflexivity.
Defined.

(** C9: [fit] returns [None] and leaves the state as it was, whatever
    array and keywords it is given: [decimals], [apply_fit],
    [apply_predict] and the outcome of every later call of the
    postprocessor are what they were before. *)
Theorem fit_is_a_no_op {scalar} (around_scalar : dtype → Z → scalar → scalar)
    (w : world scalar) (preds : positive) (kwargs : list (string * pyval)) :
  fit preds kwargs w = (Ok PyNone, w) ∧
  run_op around_scalar (Fit preds kwargs) w = w ∧
  (let w' := (fit preds kwargs w).2 in
   getattr "decimals" w' = getattr "decimals" w ∧
   apply_fit w' = apply_fit w ∧
   apply_predict w' = apply_predict w ∧
   ∀ p, __call__ around_scalar p w' = __call__ around_scalar p w).
Proof. done. Qed.

(** C10: the array a call returns depends only on the input array and on
    [decimals]: two calls, on instances holding the same [decimals] and on
    references to equal arrays, either raise the same exception or return
    references to equal arrays; and [set_params] returns [True] whenever it
    returns. *)
Theorem call_is_deterministic {scalar} (around_scalar : dtype → Z → scalar → scalar) :
  (∀ (w1 w2 : world scalar) p1 p2,
     attrs w1 !! "decimals" = attrs w2 !! "decimals" →
     arrays w1 !! p1 = arrays w2 !! p2 →
     match __call__ around_scalar p1 w1, __call__ around_scalar p2 w2 with
     | (Ok o1, w1'), (Ok o2, w2') =>
         arrays w1' !! o1 = arrays w2' !! o2 ∧ is_Some (arrays w1' !! o1)
     | (Raise e1, _), (Raise e2, _) => e1 = e2
     | _, _ => False
     end) ∧
  (∀ kwargs (w : world scalar) r w', set_params kwargs w = (Ok r, w') → r = PyBool true).
Proof.
  split.
  - intros w1 w2 p1 p2 Hd Ha.
    unfold __call__, mbind, M_bind, getattr, np_around.
    rewrite <- Hd. destruct (attrs w1 !! "decimals") as [d|]; [|done].
    cbn [arrays]. rewrite <- Ha. destruct (arrays w1 !! p1) as [a|] eqn:Ha1; [|done].
    destruct (index d) as [z|]; [|done].
    destruct (negb (fits_c_int z)); [done|].
    destruct (bool_decide (kind (dtype_of a) = integer_kind) && (0 <=? z)).
    + rewrite <- Ha, Ha1. by split.
    + cbn [arrays]. by rewrite !lookup_insert_eq.
  - intros kwargs w r w'. rewrite set_params_unfold. cbn zeta.
    destruct (saved kwargs (attrs w) !! "decimals") as [d|]; [|done].
    destruct (decide (positive_python_int d)); [|done].
    by intros [= <- _].
Qed.

Lemma call_is_deterministic_witness :
  match __call__ around_decimal 1 sample_world,
        __call__ around_decimal 5
          (mk_world (<["decimals" := PyInt 3]> ∅)
                    {[ 5%positive := sample_preds; 6%positive := sample_preds ]}) with
  | (Ok o1, w1'), (Ok o2, w2') =>
      arrays w1' !! o1 = arrays w2' !! o2 ∧ is_Some (arrays w1' !! o1)
  | (Raise e1, _), (Raise e2, _) => e1 = e2
  | _, _ => False
  end ∧
  ∀ w', set_params [("decimals", PyBool true)] sample_world = (Ok (PyInt 1), w') → False.
Proof.
  destruct (call_is_deterministic around_decimal) as [Hcall Hset].
  split.
  - apply Hcall; reflexivity.
  - intros w' H. apply Hset in H. discriminate H.
Defined.

(** ** Calling the postprocessor on its own output *)

(** X1: whether a second rounding changes anything is a question about
    numpy's scalar rounding alone: where that is idempotent on the elements
    of the input, and [decimals] holds an integer that fits a C [int], the
    postprocessor called on the array it returned returns an equal array,
    and the first result is left as it was. *)
Theorem call_twice_when_scalar_rounding_idempotent {scalar}
    (around_scalar : dtype → Z → scalar → scalar)
    (w : world scalar) (preds : positive) (a : ndarray scalar) (d : pyval) (z : Z) :
  arrays w !! preds = Some a →
  attrs w !! "decimals" = Some d →
  index d = Ok z →
  - 2 ^ 31 < z < 2 ^ 31 →
  (∀ x, x ∈ data a →
     around_scalar (dtype_of a) z (around_scalar (dtype_of a) z x)
     = around_scalar (dtype_of a) z x) →
  ∃ out1 w1 out2 w2 r,
    __call__ around_scalar preds w = (Ok out1, w1) ∧
    __call__ around_scalar out1 w1 = (Ok out2, w2) ∧
    arrays w2 !! out1 = Some r ∧
    arrays w2 !! out2 = Some r.
Proof.
  intros Ha Hd Hz Hfit Hidem.
  pose proof (call_unfold around_scalar w preds d z a Hd Hz Ha) as H1.
  rewrite (fits_c_int_true z Hfit) in H1. cbn [negb] in H1.
  destruct (returned_as_is a z) eqn:Has.
  { exists preds, w, preds, w, a. by rewrite H1. }
  set (out1 := fresh (dom (arrays w))) in *.
  set (r := rounded_array around_scalar z a) in *.
  set (w1 := {| attrs := attrs w; arrays := <[out1 := r]> (arrays w) |}) in *.
  assert (Hr : arrays w1 !! out1 = Some r) by apply lookup_insert_eq.
  pose proof (call_unfold around_scalar w1 out1 d z r Hd Hz Hr) as H2.
  rewrite (fits_c_int_true z Hfit) in H2. cbn [negb] in H2.
  change (returned_as_is r z) with (returned_as_is a z) in H2. rewrite Has in H2.
  pose proof (fresh_reference_unused w1) as Hfresh.
  set (out2 := fresh (dom (arrays w1))) in *.
  assert (Hne : out2 ≠ out1) by (intros Heq; rewrite Heq in Hfresh; congruence).
  assert (Hsame : rounded_array around_scalar z r = r).
  { unfold r, rounded_array; cbn [shape dtype_of data]. f_equal.
    rewrite <- list_fmap_compose. apply list_fmap_ext.
    intros i x Hx. apply Hidem. by eapply list_elem_of_lookup_2. }
  eexists out1, w1, out2, _, r. split; [exact H1|]. split; [exact H2|].
  cbn [arrays]. rewrite Hsame. split.
  - by rewrite lookup_insert_ne.
  - apply lookup_insert_eq.
Qed.

(** Exact decimal rounding is idempotent. *)
Lemma around_decimal_idempotent t decimals x :
  around_decimal t decimals (around_decimal t decimals x) = around_decimal t decimals x.
Proof.
  unfold around_decimal. destruct (6 <=? decimals) eqn:Hd; [reflexivity|].
  apply Z.leb_gt in Hd. cbn zeta.
  set (m := 10 ^ (6 - decimals)).
  assert (Hm : 0 < m) by (apply Z.pow_pos_nonneg; lia).
  assert (Hmult : ∀ k, (if 2 * ((k * m) `mod` m) <? m then (k * m) `div` m * m
                        else if m <? 2 * ((k * m) `mod` m) then ((k * m) `div` m + 1) * m
                        else if Z.even ((k * m) `div` m) then (k * m) `div` m * m
                        else ((k * m) `div` m + 1) * m) = k * m).
  { intros k. rewrite Z.mod_mul, Z.div_mul by lia.
    destruct (Z.ltb_spec (2 * 0) m); [reflexivity|lia]. }
  destruct (2 * (x `mod` m) <? m); [apply Hmult|].
  destruct (m <? 2 * (x `mod` m)); [apply Hmult|].
  destruct (Z.even (x `div` m)); apply Hmult.
Qed.

Lemma call_twice_when_scalar_rounding_idempotent_witness :
  ∃ out1 w1 out2 w2 r,
    __call__ around_decimal 1 sample_world = (Ok out1, w1) ∧
    __call__ around_decimal out1 w1 = (Ok out2, w2) ∧
    arrays w2 !! out1 = Some r ∧
    arrays w2 !! out2 = Some r.
Proof.
  apply (call_twice_when_scalar_rounding_idempotent around_decimal sample_world 1
           sample_preds (PyInt 3) 3); [reflexivity | reflexivity | reflexivity | lia |].
  intros x _. apply around_decimal_idempotent.
Defined.

(** ** Further properties of the class *)

Section Traces.

Context {scalar : Type} (around_scalar : dtype → Z → scalar → scalar).
Implicit Types (w : world scalar) (kwargs : list (string * pyval)) (os : list op).

Lemma world_eta w : {| attrs := attrs w; arrays := arrays w |} = w.
Proof. by destruct w. Qed.

Lemma saved_snoc kwargs kv (a : gmap string pyval) :
  saved (kwargs ++ [kv]) a =
  if bool_decide (kv.1 ∈ params) then <[kv.1 := kv.2]> (saved kwargs a) else saved kwargs a.
Proof. unfold saved. by rewrite foldl_app. Qed.

(** What [set_params] has saved under [decimals]: the value it was given,
    the one that was there when it was given none. *)
Lemma saved_lookup_decimals kwargs (a : gmap string pyval) :
  saved kwargs a !! "decimals" = from_option Some (a !! "decimals") (decimals_given kwargs).
Proof.
  induction kwargs as [|[key value] kwargs IH] using rev_ind; [done|].
  rewrite saved_snoc. unfold decimals_given. rewrite foldl_app. cbn [foldl fst snd].
  fold (decimals_given kwargs). unfold params.
  destruct (decide (key = "decimals")) as [->|Hne].
  - rewrite !bool_decide_eq_true_2 by (done || by apply list_elem_of_singleton).
    by rewrite lookup_insert_eq.
  - rewrite !bool_decide_eq_false_2 by (done || by rewrite list_elem_of_singleton).
    exact IH.
Qed.

Lemma set_params_attrs kwargs w : attrs (set_params kwargs w).2 = saved kwargs (attrs w).
Proof.
  rewrite set_params_unfold. cbn zeta.
  destruct (saved kwargs (attrs w) !! "decimals") as [d|];
    [destruct (decide (positive_python_int d))|]; done.
Qed.

Lemma set_params_arrays kwargs w : arrays (set_params kwargs w).2 = arrays w.
Proof.
  rewrite set_params_unfold. cbn zeta.
  destruct (saved kwargs (attrs w) !! "decimals") as [d|];
    [destruct (decide (positive_python_int d))|]; done.
Qed.

(** A call either leaves the arrays as they are or adds one under an
    unused reference. *)
Lemma call_arrays w preds :
  arrays (__call__ around_scalar preds w).2 = arrays w ∨
  ∃ r, arrays (__call__ around_scalar preds w).2 = <[fresh (dom (arrays w)) := r]> (arrays w).
Proof.
  destruct (call_outcomes around_scalar w preds)
    as [[e ->]|[(d & z & a & _ & _ & _ & _ & _ & ->)|(d & z & a & _ & _ & _ & _ & _ & ->)]];
    [by left | by left | right; by eexists].
Qed.

Lemma run_op_keeps_arrays o w l a :
  arrays w !! l = Some a → arrays (run_op around_scalar o w) !! l = Some a.
Proof.
  intros Hl. destruct o as [preds|preds kwargs|kwargs]; cbn [run_op].
  - destruct (call_arrays w preds) as [->|[r ->]]; [done|].
    rewrite lookup_insert_ne; [done|].
    intros Heq. pose proof (fresh_reference_unused w) as Hf. congruence.
  - done.
  - by rewrite set_params_arrays.
Qed.

Lemma run_op_size o w :
  (size (arrays (run_op around_scalar o w)) ≤ size (arrays w) + calls [o])%nat.
Proof.
  destruct o as [preds|preds kwargs|kwargs]; cbn [run_op].
  - destruct (call_arrays w preds) as [->|[r ->]]; [unfold calls; simpl; lia|].
    rewrite map_size_insert_None by apply fresh_reference_unused.
    unfold calls; simpl; lia.
  - unfold calls; simpl; lia.
  - rewrite set_params_arrays. unfold calls; simpl; lia.
Qed.

Lemma run_ops_snoc os o w :
  run_ops around_scalar (os ++ [o]) w = run_op around_scalar o (run_ops around_scalar os w).
Proof. unfold run_ops. by rewrite foldl_app. Qed.

Lemma calls_snoc os o : calls (os ++ [o]) = (calls os + calls [o])%nat.
Proof. unfold calls. by rewrite sum_list_with_app. Qed.

Lemma run_op_decimals o w :
  attrs (run_op around_scalar o w) !! "decimals" = last_decimals [o] (attrs w !! "decimals").
Proof.
  destruct o as [preds|preds kwargs|kwargs]; cbn [run_op last_decimals foldl].
  - by rewrite call_attrs.
  - done.
  - by rewrite set_params_attrs, saved_lookup_decimals.
Qed.

End Traces.

(** X2: [set_params] never raises a [TypeError]: a [decimals] that does
    not compare with 0, a string or [None], is turned down by the class
    test before the comparison is reached. On an instance that has a
    [decimals], or when one is given, the only exception is the validation
    error; with neither, reading [decimals] back raises the attribute
    error. *)
Theorem set_params_raises_only_validation_errors {scalar} :
  (∀ kwargs (w : world scalar) msg, (set_params kwargs w).1 ≠ Raise (TypeError msg)) ∧
  (∀ kwargs (w : world scalar) e,
     is_Some (attrs w !! "decimals") ∨ is_Some (decimals_given kwargs) →
     (set_params kwargs w).1 = Raise e → e = decimals_error) ∧
  (∀ kwargs (w : world scalar),
     attrs w !! "decimals" = None → decimals_given kwargs = None →
     (set_params kwargs w).1 = Raise (AttributeError "decimals")).
Proof.
  split; [|split].
  - intros kwargs w msg. rewrite set_params_unfold. cbn zeta.
    destruct (saved kwargs (attrs w) !! "decimals") as [d|];
      [destruct (decide (positive_python_int d))|]; done.
  - intros kwargs w e Hsome. rewrite set_params_unfold. cbn zeta.
    rewrite saved_lookup_decimals.
    destruct (decimals_given kwargs) as [d|]; cbn [from_option].
    + destruct (decide (positive_python_int d)); cbn [fst]; congruence.
    + destruct Hsome as [[d ->]|[d [=]]].
      destruct (decide (positive_python_int d)); cbn [fst]; congruence.
  - intros kwargs w Hnone Hgiven. rewrite set_params_unfold. cbn zeta.
    by rewrite saved_lookup_decimals, Hgiven, Hnone.
Qed.

Lemma set_params_raises_only_validation_errors_witness :
  (set_params [("decimals", PyStr "3"); ("verbose", PyNone)] sample_world).1
    = Raise decimals_error ∧
  (set_params [("verbose", PyBool true)] (mk_world (scalar := Z) ∅ ∅)).1
    = Raise (AttributeError "decimals").
Proof.
  destruct (@set_params_raises_only_validation_errors Z) as (_ & Hval & Hattr).
  split.
  - destruct (set_params [("decimals", PyStr "3"); ("verbose", PyNone)] sample_world).1
      as [r|e] eqn:Hr; [vm_compute in Hr; discriminate Hr|].
    f_equal.
    apply (Hval [("decimals", PyStr "3"); ("verbose", PyNone)] sample_world e);
      [left; by eexists | exact Hr].
  - apply Hattr; reflexivity.
Defined.

(** X3: [set_params()] without keywords validates what is stored and
    changes nothing: it returns [True] on an instance whose [decimals]
    holds a positive integer of Python's own, and after
    [set_params(decimals=d)] it repeats that call's outcome, so an instance
    whose update was rejected keeps raising until a valid [decimals] is
    given. *)
Theorem set_params_without_keywords_revalidates {scalar} (w : world scalar) :
  (set_params [] w).2 = w ∧
  (∀ d, attrs w !! "decimals" = Some d → positive_python_int d →
        set_params [] w = (Ok (PyBool true), w)) ∧
  (∀ d, set_params [] (set_params [("decimals", d)] w).2 = set_params [("decimals", d)] w).
Proof.
  split; [|split].
  - rewrite set_params_unfold. cbn [saved foldl]. cbn zeta. rewrite world_eta.
    destruct (attrs w !! "decimals") as [d|];
      [destruct (decide (positive_python_int d))|]; done.
  - intros d Hd Hp. rewrite set_params_unfold. cbn [saved foldl]. cbn zeta.
    rewrite Hd, world_eta. by destruct (decide (positive_python_int d)).
  - intros d. rewrite (set_params_decimals d w). cbn [snd].
    rewrite set_params_unfold. cbn [saved foldl attrs arrays]. cbn zeta.
    rewrite lookup_insert_eq. by destruct (decide (positive_python_int d)).
Qed.

Lemma set_params_without_keywords_revalidates_witness :
  set_params [] sample_world = (Ok (PyBool true), sample_world) ∧
  (set_params [] (set_params [("decimals", PyInt 0)] sample_world).2).1 = Raise decimals_error.
Proof.
  destruct (set_params_without_keywords_revalidates sample_world) as (_ & Hok & Hrepeat).
  split.
  - apply (Hok (PyInt 3)); [reflexivity|]. exists 3. split; [reflexivity|lia].
  - rewrite Hrepeat. reflexivity.
Defined.

(** X4: no sequence of calls of [__call__], [fit] and [set_params],
    returning or raising, changes or removes an array that exists; the
    arrays grow by at most one for each call of [__call__] and by none for
    the other methods. *)
Theorem methods_keep_existing_arrays {scalar} (around_scalar : dtype → Z → scalar → scalar)
    (os : list op) (w : world scalar) :
  (∀ l a, arrays w !! l = Some a → arrays (run_ops around_scalar os w) !! l = Some a) ∧
  (size (arrays (run_ops around_scalar os w)) ≤ size (arrays w) + calls os)%nat.
Proof.
  induction os as [|o os [IHkeep IHsize]] using rev_ind.
  - split; [done|]. cbn. lia.
  - rewrite run_ops_snoc, calls_snoc. split.
    + intros l a Hl. by apply run_op_keeps_arrays, IHkeep.
    + pose proof (run_op_size around_scalar o (run_ops around_scalar os w)). lia.
Qed.

Lemma methods_keep_existing_arrays_witness :
  let os := [Call 1; SetParams [("decimals", PyStr "x")]; Call 1; Fit 1 []; Call 2] in
  arrays (run_ops around_decimal os sample_world) !! 1%positive = Some sample_preds ∧
  (size (arrays (run_ops around_decimal os sample_world)) ≤ 1 + 3)%nat.
Proof.
  intros os.
  destruct (methods_keep_existing_arrays around_decimal os sample_world) as [Hkeep Hsize].
  split; [by apply Hkeep | exact Hsize].
Defined.

(** X5: an instance that was constructed holds the [decimals] the
    constructor was given, 3 when it was given none; constructing it
    creates no array; and it is marked fitted from then on, whatever
    methods are called on it. *)
Theorem constructed_instance_state {scalar} (around_scalar : dtype → Z → scalar → scalar)
    d af ap store (w : world scalar) :
  new d af ap store = Ok w →
  attrs w !! "decimals" = Some (default (PyInt 3) d) ∧
  arrays w = store ∧
  ∀ os, attrs (run_ops around_scalar os w) !! "_is_fitted" = Some (PyBool true).
Proof.
  rewrite new_unfold. cbn zeta.
  destruct (decide (positive_python_int (default (PyInt 3) d))); [|done].
  intros [= <-]. cbn [attrs arrays]. split; [apply lookup_insert_eq|]. split; [done|].
  intros os. rewrite run_ops_keep_private by done. cbn [attrs]. unfold initial_attrs.
  rewrite !lookup_insert_ne by done. apply lookup_insert_eq.
Qed.

Lemma constructed_instance_state_witness :
  attrs sample_world !! "decimals" = Some (PyInt 3) ∧
  arrays sample_world = {[ 1%positive := sample_preds ]} ∧
  ∀ os, attrs (run_ops around_decimal os sample_world) !! "_is_fitted" = Some (PyBool true).
Proof.
  apply (constructed_instance_state around_decimal None None None
           {[ 1%positive := sample_preds ]} sample_world).
  reflexivity.
Defined.

(** X6: an instance constructed with [decimals=d], where [d] stands for
    an integer below [2 ^ 31], returns when called on a prediction array:
    for an array of integer type the array itself, and otherwise a new
    array holding the input rounded to that integer, which is greater than
    0. *)
Theorem constructed_instance_rounds_at_given_decimals {scalar}
    (around_scalar : dtype → Z → scalar → scalar)
    d af ap store (w : world scalar) (preds : positive) (a : ndarray scalar) (z : Z) :
  new d af ap store = Ok w →
  store !! preds = Some a →
  index (default (PyInt 3) d) = Ok z →
  z < 2 ^ 31 →
  0 < z ∧
  ∃ out w',
    __call__ around_scalar preds w = (Ok out, w') ∧
    if bool_decide (kind (dtype_of a) = integer_kind)
    then out = preds ∧ w' = w
    else store !! out = None ∧ arrays w' !! out = Some (rounded_array around_scalar z a).
Proof.
  rewrite new_unfold. cbn zeta.
  destruct (decide (positive_python_int (default (PyInt 3) d))) as [(z' & Hz' & Hpos)|]; [|done].
  intros [= <-] Ha Hz Hlt.
  apply python_int_index in Hz'. rewrite Hz in Hz'. injection Hz' as <-.
  split; [exact Hpos|].
  rewrite (call_unfold around_scalar _ preds (default (PyInt 3) d) z a);
    cbn [attrs arrays]; [|apply lookup_insert_eq | exact Hz | exact Ha].
  rewrite fits_c_int_true by lia. cbn [negb]. unfold returned_as_is.
  assert (Hnn : (0 <=? z) = true) by (apply Z.leb_le; lia). rewrite Hnn, andb_true_r.
  destruct (bool_decide (kind (dtype_of a) = integer_kind)).
  - by eexists _, _.
  - eexists _, _. split; [reflexivity|]. cbn [arrays].
    split; [apply not_elem_of_dom, is_fresh | apply lookup_insert_eq].
Qed.

Lemma constructed_instance_rounds_at_given_decimals_witness :
  ∃ out w',
    __call__ around_decimal 1 sample_world = (Ok out, w') ∧
    arrays w' !! out = Some (rounded_array around_decimal 3 sample_preds).
Proof.
  destruct (constructed_instance_rounds_at_given_decimals around_decimal
              None None None {[ 1%positive := sample_preds ]} sample_world 1 sample_preds 3)
    as (_ & out & w' & Hcall & _ & Hout); [reflexivity | reflexivity | reflexivity | lia |].
  by exists out, w'.
Defined.

(** X7: after [set_params(decimals=d)] has raised because [d] is not a
    positive integer, the instance works with the value it turned down.
    When [d] is an integer (0 or negative) that fits a C [int], a call on a
    prediction array returns the input rounded to [d] decimals, the input
    itself for an array of integer type and [d = 0]; below the range of a
    C [int] the call raises numpy's overflow error; and when [d] is no
    integer it raises numpy's type error. A call that raises leaves
    everything as it is. *)
Theorem rejected_decimals_is_used_by_call {scalar}
    (around_scalar : dtype → Z → scalar → scalar)
    (w : world scalar) (d : pyval) (preds : positive) (a : ndarray scalar) :
  ¬ positive_integer d →
  arrays w !! preds = Some a →
  let w1 := (set_params [("decimals", d)] w).2 in
  (set_params [("decimals", d)] w).1 = Raise decimals_error ∧
  match index d with
  | Ok z =>
      z ≤ 0 ∧
      (z < - 2 ^ 31 →
       __call__ around_scalar preds w1 =
       (Raise (OverflowError "Python int too large to convert to C int"), w1)) ∧
      (- 2 ^ 31 < z →
       ∃ out w', __call__ around_scalar preds w1 = (Ok out, w') ∧
                 arrays w' !! out =
                 Some (if returned_as_is a z then a else rounded_array around_scalar z a))
  | Raise e => __call__ around_scalar preds w1 = (Raise e, w1)
  end.
Proof.
  intros Hd Ha. cbn zeta. rewrite set_params_decimals. cbn [fst snd].
  split.
  { destruct (decide (positive_python_int d)) as [Hp|]; [|done].
    destruct Hd. by apply positive_python_int_positive. }
  destruct (index d) as [z|e] eqn:Hz.
  - assert (Hle : z ≤ 0).
    { destruct (Z.le_gt_cases z 0) as [|Hpos]; [done|].
      exfalso. apply Hd. exists z. split; [done|lia]. }
    split; [exact Hle|].
    pose proof (call_unfold around_scalar
                  {| attrs := <["decimals" := d]> (attrs w); arrays := arrays w |}
                  preds d z a (lookup_insert_eq _ _ _) Hz Ha) as Hcall.
    split.
    + intros Hlow. rewrite Hcall.
      assert (Hfit : fits_c_int z = false).
      { unfold fits_c_int. apply andb_false_intro1. apply Z.leb_gt. lia. }
      by rewrite Hfit.
    + intros Hlow. rewrite Hcall. rewrite fits_c_int_true by lia. cbn [negb].
      destruct (returned_as_is a z); eexists _, _; (split; [reflexivity|]); cbn [arrays].
      * exact Ha.
      * apply lookup_insert_eq.
  - unfold __call__, mbind, M_bind, getattr, np_around. cbn [attrs].
    rewrite lookup_insert_eq. cbn [arrays]. by rewrite Ha, Hz.
Qed.

Lemma rejected_decimals_is_used_by_call_witness :
  ∃ out w',
    __call__ around_decimal 1 (set_params [("decimals", PyInt (-1))] sample_world).2
      = (Ok out, w') ∧
    arrays w' !! out = Some (rounded_array around_decimal (-1) sample_preds).
Proof.
  destruct (rejected_decimals_is_used_by_call around_decimal sample_world (PyInt (-1)) 1
              sample_preds) as (_ & _ & _ & Hcall).
  - intros (z & [= <-] & Hpos). lia.
  - reflexivity.
  - apply Hcall. lia.
Defined.

(** X8: after any sequence of calls of [__call__], [fit] and
    [set_params], [decimals] holds the value the last [set_params] that
    named it was given, accepted or not, and what it held at the start
    when none named it: no other method writes it, and a rejected value is
    not taken back. *)
Theorem decimals_is_last_given {scalar} (around_scalar : dtype → Z → scalar → scalar)
    (os : list op) (w : world scalar) :
  attrs (run_ops around_scalar os w) !! "decimals" = last_decimals os (attrs w !! "decimals").
Proof.
  induction os as [|o os IH] using rev_ind; [done|].
  rewrite run_ops_snoc, run_op_decimals, IH.
  unfold last_decimals. by rewrite foldl_app.
Qed.

(** X9: the only method call after which a configured instance is no
    longer configured is a [set_params] that raises the validation error:
    [__call__], [fit] and a [set_params] that returns keep [decimals] a
    positive integer. *)
Theorem configured_lost_only_by_rejected_update {scalar}
    (around_scalar : dtype → Z → scalar → scalar) (o : op) (w : world scalar) :
  configured w →
  configured (run_op around_scalar o w) ∨
  ∃ kwargs, o = SetParams kwargs ∧ (set_params kwargs w).1 = Raise decimals_error.
Proof.
  intros (d & Hd & Hp).
  destruct o as [preds|preds kwargs|kwargs]; cbn [run_op].
  - left. exists d. by rewrite call_attrs.
  - left. by exists d.
  - rewrite set_params_unfold. cbn zeta.
    destruct (saved kwargs (attrs w) !! "decimals") as [d'|] eqn:Hd'.
    + destruct (decide (positive_python_int d')) as [Hp'|]; cbn [fst snd].
      * left. exists d'. split; [done|]. by apply positive_python_int_positive.
      * right. exists kwargs. split; [done|].
        rewrite set_params_unfold. cbn zeta. rewrite Hd'.
        by destruct (decide (positive_python_int d')).
    + rewrite saved_lookup_decimals, Hd in Hd'.
      by destruct (decimals_given kwargs).
Qed.

Lemma configured_lost_only_by_rejected_update_witness :
  configured (run_op around_decimal (SetParams [("decimals", PyInt 5)]) sample_world) ∧
  configured (run_op around_decimal (Call 1) sample_world).
Proof.
  assert (Hc : configured sample_world).
  { exists (PyInt 3). split; [reflexivity|]. exists 3. split; [reflexivity|lia]. }
  split.
  - destruct (configured_lost_only_by_rejected_update around_decimal
                (SetParams [("decimals", PyInt 5)]) sample_world Hc)
      as [H|(kwargs & [= <-] & Hraise)]; [exact H|].
    vm_compute in Hraise. discriminate Hraise.
  - destruct (configured_lost_only_by_rejected_update around_decimal (Call 1) sample_world Hc)
      as [H|(kwargs & Ho & _)]; [exact H | discriminate Ho].
Defined.
